(** * Policy subcommands of the CA client: [cn-regex], [uri-constraint],
    [email-regex], [uri-regex], [dns-regex], [principal-regex].

    The six actions of package [actions] are embedded as programs of a small
    monad that threads the policy object and a log of the calls made to the
    collaborators ([cautils.NewAdminClient], [retrieveAndInitializePolicy],
    [updatePolicy], [prettyPrint]).  Module [RuleList] holds the rule-list
    operations the actions rely on. *)

From Stdlib Require Import String Ascii List Bool Arith Lia.
Import ListNotations.
Local Open Scope string_scope.
Local Open Scope list_scope.

(** ** Branches, kinds and the legality table *)

Inductive PolicyBranch := X509 | SSHHost | SSHUser.

Inductive Kind := DNS | Email | URI | IPRange | CommonName | SSHPrincipal.

Definition PolicyBranch_eqb (a b : PolicyBranch) : bool :=
  match a, b with
  | X509, X509 | SSHHost, SSHHost | SSHUser, SSHUser => true
  | _, _ => false
  end.

(** The legality table as the specification states it (section 4.3), row
    by row; the actions are compared with it below. *)
Definition legal (b : PolicyBranch) (k : Kind) : bool :=
  match k, b with
  | DNS, X509 => true          | DNS, SSHHost => true           | DNS, SSHUser => false
  | Email, X509 => true        | Email, SSHHost => false        | Email, SSHUser => true
  | URI, X509 => true          | URI, SSHHost => false          | URI, SSHUser => false
  | IPRange, X509 => true      | IPRange, SSHHost => false      | IPRange, SSHUser => false
  | CommonName, X509 => true   | CommonName, SSHHost => false   | CommonName, SSHUser => false
  | SSHPrincipal, X509 => false | SSHPrincipal, SSHHost => true | SSHPrincipal, SSHUser => true
  end.

(** ** Strings *)


(** * Rule lists *)

Module RuleList.

Inductive Mode := Literal | Wildcard | StructuredURI | Regex.

(** Modelled from the spec: the rule entry of section 3, which these files
    only know as a string.  [mode] is fixed when the entry is made: from the
    syntax of [raw], or [Regex] for a value given to a regex command. *)
Record Pattern := { raw : string; kind : Kind; mode : Mode }.




(** The patterns of one (branch, allow or deny, kind) cell, in insertion order. *)
Definition RuleList := list Pattern.

(** Modelled from the spec: the rule-list operations of section 4.2, which
    these files reach only through [addOrRemoveArguments].  Entries are
    compared by [raw], case-sensitively. *)
Definition Contains (k : Kind) (v : string) (l : RuleList) : bool :=
  existsb (fun p => String.eqb (raw p) v) l.

(** Modelled from the spec: adding a pattern whose raw value the list
    already holds changes nothing; otherwise it goes to the end. *)
Definition AddPattern (p : Pattern) (l : RuleList) : RuleList * bool :=
  if Contains (kind p) (raw p) l then (l, false) else (l ++ [p], true).



(** Modelled from the spec: removing a raw value the list does not hold
    changes nothing and is no error. *)
Definition Remove (k : Kind) (v : string) (l : RuleList) : RuleList * bool :=
  if Contains k v l then (filter (fun p => negb (String.eqb (raw p) v)) l, true)
  else (l, false).

(** The same on the raw values, as the policy document stores them. *)
Definition addRaw (v : string) (l : list string) : list string :=
  if existsb (fun x => String.eqb x v) l then l else l ++ [v].

Definition removeRaw (v : string) (l : list string) : list string :=
  filter (fun x => negb (String.eqb x v)) l.

(** Modelled from the spec: [addOrRemoveArguments], which these files call
    and do not define.  Each argument in turn is added to, or removed from,
    the existing values. *)
Definition addOrRemoveArguments (existing args : list string) (shouldRemove : bool)
  : list string :=
  fold_left (fun l v => if shouldRemove then removeRaw v l else addRaw v l) args existing.




(** ** Proofs *)












(** The operations on raw values agree with those on patterns. *)
Lemma raw_of_AddPattern (p : Pattern) (l : RuleList) :
  map raw (fst (AddPattern p l)) = addRaw (raw p) (map raw l).
Proof.
  unfold AddPattern, addRaw, Contains.
  assert (He : existsb (fun x => String.eqb x (raw p)) (map raw l)
               = existsb (fun q => String.eqb (raw q) (raw p)) l).
  { induction l as [|q l IH]; simpl; [reflexivity|]. rewrite IH. reflexivity. }
  rewrite He.
  destruct (existsb _ l); simpl; [reflexivity|].
  rewrite map_app. reflexivity.
Qed.

Lemma raw_of_Remove (k : Kind) (v : string) (l : RuleList) :
  map raw (fst (Remove k v l)) = removeRaw v (map raw l).
Proof.
  unfold Remove, removeRaw.
  assert (Hf : map raw (filter (fun p => negb (String.eqb (raw p) v)) l)
               = filter (fun x => negb (String.eqb x v)) (map raw l)).
  { induction l as [|p l IH]; simpl; [reflexivity|].
    destruct (String.eqb (raw p) v); simpl; rewrite IH; reflexivity. }
  destruct (Contains k v l) eqn:Hc; simpl; [exact Hf|].
  rewrite <- Hf. clear Hf.
  unfold Contains in Hc.
  induction l as [|p l IH]; simpl in *; [reflexivity|].
  apply orb_false_iff in Hc. destruct Hc as [Hp Hl].
  rewrite Hp. simpl. f_equal. apply IH. exact Hl.
Qed.


End RuleList.

(** * The actions *)

Module Actions.

Inductive ListSel := AllowList | DenyList.

(** The rule-list fields of [linkedca.Policy] that the actions assign to. *)
Inductive X509Field := CommonNameRegex | UriConstraints | EmailRegex | UriRegex | DnsRegex.
Inductive HostField := HostDnsRegex | HostPrincipalRegex.
Inductive UserField := UserEmailRegex | UserPrincipalRegex.

Inductive Field :=
| PolicyX509 (l : ListSel) (f : X509Field)
| PolicySshHost (l : ListSel) (f : HostField)
| PolicySshUser (l : ListSel) (f : UserField).

(** The six subcommands. *)
Inductive Command :=
| CnRegex | UriConstraint | EmailRegexCmd | UriRegexCmd | DnsRegexCmd | PrincipalRegex.

(** [cli.Context] together with the policy context flags that
    [policycontext] reads from [context.Context]. *)
Record Context := {
  IsSSHHostPolicy : bool;
  IsSSHUserPolicy : bool;
  IsX509Policy : bool;
  IsAllow : bool;
  IsDeny : bool;
  Args : list string;          (* clictx.Args() *)
  Bool_remove : bool           (* clictx.Bool("remove") *)
}.

(** Errors.  A collaborator's error is kept by its text. *)
Definition ExtErr := string.

Inductive error :=
| Ext (e : ExtErr)                          (* returned as it came *)
| ErrorsNew (msg : string)                  (* errors.New(msg) *)
| Errorf (prefix : string) (cause : ExtErr) (* fmt.Errorf("prefix: %w", cause) *).

(** The [Error()] text. *)
Definition Error (e : error) : string :=
  match e with
  | Ext t => t
  | ErrorsNew msg => msg
  | Errorf prefix cause => (prefix ++ ": " ++ cause)%string
  end.

Section Collaborators.

(** What the [linkedca] messages hold besides the fields named in these
    files (the literal name lists, the wildcard switch, the identifier). *)
Variable Rest : Type.
Variable Client : Type.
Definition Provisioner := string.

Record X509Names := {
  x_CommonNameRegex : list string;
  x_UriConstraints : list string;
  x_EmailRegex : list string;
  x_UriRegex : list string;
  x_DnsRegex : list string;
  x_rest : Rest
}.

Record X509Policy := { X509_Allow : X509Names; X509_Deny : X509Names; X509_rest : Rest }.

Record SSHHostNames := {
  h_DnsRegex : list string;
  h_PrincipalRegex : list string;
  h_rest : Rest
}.

Record SSHUserNames := {
  u_EmailRegex : list string;
  u_PrincipalRegex : list string;
  u_rest : Rest
}.

Record SSHHostPolicy := { Host_Allow : SSHHostNames; Host_Deny : SSHHostNames; Host_rest : Rest }.
Record SSHUserPolicy := { User_Allow : SSHUserNames; User_Deny : SSHUserNames; User_rest : Rest }.
Record SSHPolicy := { Ssh_Host : SSHHostPolicy; Ssh_User : SSHUserPolicy; Ssh_rest : Rest }.

(** [linkedca.Policy], every nested message initialised, as
    [retrieveAndInitializePolicy] hands it over. *)
Record Policy := { Policy_X509 : X509Policy; Policy_Ssh : SSHPolicy; Policy_rest : Rest }.

(** *** Reading and assigning a field through its path *)

Definition getX509Names (f : X509Field) (n : X509Names) : list string :=
  match f with
  | CommonNameRegex => x_CommonNameRegex n
  | UriConstraints => x_UriConstraints n
  | EmailRegex => x_EmailRegex n
  | UriRegex => x_UriRegex n
  | DnsRegex => x_DnsRegex n
  end.

Definition setX509Names (f : X509Field) (v : list string) (n : X509Names) : X509Names :=
  match f with
  | CommonNameRegex =>
      Build_X509Names v (x_UriConstraints n) (x_EmailRegex n) (x_UriRegex n) (x_DnsRegex n) (x_rest n)
  | UriConstraints =>
      Build_X509Names (x_CommonNameRegex n) v (x_EmailRegex n) (x_UriRegex n) (x_DnsRegex n) (x_rest n)
  | EmailRegex =>
      Build_X509Names (x_CommonNameRegex n) (x_UriConstraints n) v (x_UriRegex n) (x_DnsRegex n) (x_rest n)
  | UriRegex =>
      Build_X509Names (x_CommonNameRegex n) (x_UriConstraints n) (x_EmailRegex n) v (x_DnsRegex n) (x_rest n)
  | DnsRegex =>
      Build_X509Names (x_CommonNameRegex n) (x_UriConstraints n) (x_EmailRegex n) (x_UriRegex n) v (x_rest n)
  end.

Definition getHostNames (f : HostField) (n : SSHHostNames) : list string :=
  match f with
  | HostDnsRegex => h_DnsRegex n
  | HostPrincipalRegex => h_PrincipalRegex n
  end.

Definition setHostNames (f : HostField) (v : list string) (n : SSHHostNames) : SSHHostNames :=
  match f with
  | HostDnsRegex => Build_SSHHostNames v (h_PrincipalRegex n) (h_rest n)
  | HostPrincipalRegex => Build_SSHHostNames (h_DnsRegex n) v (h_rest n)
  end.

Definition getUserNames (f : UserField) (n : SSHUserNames) : list string :=
  match f with
  | UserEmailRegex => u_EmailRegex n
  | UserPrincipalRegex => u_PrincipalRegex n
  end.

Definition setUserNames (f : UserField) (v : list string) (n : SSHUserNames) : SSHUserNames :=
  match f with
  | UserEmailRegex => Build_SSHUserNames v (u_PrincipalRegex n) (u_rest n)
  | UserPrincipalRegex => Build_SSHUserNames (u_EmailRegex n) v (u_rest n)
  end.

Definition getField (c : Field) (p : Policy) : list string :=
  match c with
  | PolicyX509 AllowList f => getX509Names f (X509_Allow (Policy_X509 p))
  | PolicyX509 DenyList f => getX509Names f (X509_Deny (Policy_X509 p))
  | PolicySshHost AllowList f => getHostNames f (Host_Allow (Ssh_Host (Policy_Ssh p)))
  | PolicySshHost DenyList f => getHostNames f (Host_Deny (Ssh_Host (Policy_Ssh p)))
  | PolicySshUser AllowList f => getUserNames f (User_Allow (Ssh_User (Policy_Ssh p)))
  | PolicySshUser DenyList f => getUserNames f (User_Deny (Ssh_User (Policy_Ssh p)))
  end.

Definition setField (c : Field) (v : list string) (p : Policy) : Policy :=
  let x := Policy_X509 p in
  let s := Policy_Ssh p in
  let h := Ssh_Host s in
  let u := Ssh_User s in
  match c with
  | PolicyX509 AllowList f =>
      Build_Policy (Build_X509Policy (setX509Names f v (X509_Allow x)) (X509_Deny x) (X509_rest x))
                   s (Policy_rest p)
  | PolicyX509 DenyList f =>
      Build_Policy (Build_X509Policy (X509_Allow x) (setX509Names f v (X509_Deny x)) (X509_rest x))
                   s (Policy_rest p)
  | PolicySshHost AllowList f =>
      Build_Policy x
        (Build_SSHPolicy (Build_SSHHostPolicy (setHostNames f v (Host_Allow h)) (Host_Deny h) (Host_rest h))
                         u (Ssh_rest s))
        (Policy_rest p)
  | PolicySshHost DenyList f =>
      Build_Policy x
        (Build_SSHPolicy (Build_SSHHostPolicy (Host_Allow h) (setHostNames f v (Host_Deny h)) (Host_rest h))
                         u (Ssh_rest s))
        (Policy_rest p)
  | PolicySshUser AllowList f =>
      Build_Policy x
        (Build_SSHPolicy h
           (Build_SSHUserPolicy (setUserNames f v (User_Allow u)) (User_Deny u) (User_rest u))
           (Ssh_rest s))
        (Policy_rest p)
  | PolicySshUser DenyList f =>
      Build_Policy x
        (Build_SSHPolicy h
           (Build_SSHUserPolicy (User_Allow u) (setUserNames f v (User_Deny u)) (User_rest u))
           (Ssh_rest s))
        (Policy_rest p)
  end.

(** Everything in the document that is not a rule list of these files. *)
Definition otherParts (p : Policy) : list Rest :=
  [ x_rest (X509_Allow (Policy_X509 p)); x_rest (X509_Deny (Policy_X509 p));
    X509_rest (Policy_X509 p);
    h_rest (Host_Allow (Ssh_Host (Policy_Ssh p))); h_rest (Host_Deny (Ssh_Host (Policy_Ssh p)));
    Host_rest (Ssh_Host (Policy_Ssh p));
    u_rest (User_Allow (Ssh_User (Policy_Ssh p))); u_rest (User_Deny (Ssh_User (Policy_Ssh p)));
    User_rest (Ssh_User (Policy_Ssh p));
    Ssh_rest (Policy_Ssh p); Policy_rest p ].

(** *** The collaborators, none of which is defined in these files *)

Variable retrieveAndUnsetProvisionerFlagIfRequired : Context -> Provisioner.
Variable TooFewArguments : Context -> ExtErr.                 (* errs.TooFewArguments *)
Variable NewAdminClient : Context -> Client + ExtErr.         (* cautils.NewAdminClient *)
Variable retrieveAndInitializePolicy : Context -> Client -> Provisioner -> Policy + ExtErr.
Variable updatePolicy : Context -> Client -> Policy -> Provisioner -> Policy + ExtErr.
Variable prettyPrint : Policy -> option ExtErr.
Variable addOrRemoveArguments : list string -> list string -> bool -> list string.

(** *** Control and state of one invocation *)

Inductive Event :=
| EvUnsetProvisionerFlag
| EvNewAdminClient
| EvRetrievePolicy
| EvUpdatePolicy (sent : Policy)
| EvPrettyPrint (shown : Policy).

(** [policyObj] is the object behind the pointer [policy]; [trace] lists
    the calls made so far, oldest first. *)
Record Store := { policyObj : option Policy; trace : list Event }.

Definition log (e : Event) (s : Store) : Store :=
  {| policyObj := policyObj s; trace := trace s ++ [e] |}.

Inductive Step (A : Type) :=
| Next (a : A)
| Return (err : option error)
| Panic (msg : string).
Arguments Next {A} a.
Arguments Return {A} err.
Arguments Panic {A} msg.

Definition M (A : Type) := Store -> Step A * Store.

Definition ret {A} (a : A) : M A := fun s => (Next a, s).

Definition bind {A B} (m : M A) (k : A -> M B) : M B :=
  fun s =>
    match m s with
    | (Next a, s') => k a s'
    | (Return e, s') => (Return e, s')
    | (Panic msg, s') => (Panic msg, s')
    end.

Definition return_ {A} (e : option error) : M A := fun s => (Return e, s).
Definition panic {A} (msg : string) : M A := fun s => (Panic msg, s).
Definition emit (e : Event) : M unit := fun s => (Next tt, log e s).

Notation "x <- m ;; k" := (bind m (fun x => k))
  (at level 61, m at next level, right associativity).
Notation "m ;;; k" := (bind m (fun _ => k))
  (at level 61, right associativity).

(** [if err != nil { return fmt.Errorf("prefix: %w", err) }] *)
Definition check {A} (r : A + ExtErr) (prefix : string) : M A :=
  match r with
  | inl a => ret a
  | inr e => return_ (Some (Errorf prefix e))
  end.

Definition unsetProvisionerFlag (ctx : Context) : M Provisioner :=
  emit EvUnsetProvisionerFlag ;;; ret (retrieveAndUnsetProvisionerFlagIfRequired ctx).

Definition newAdminClient (ctx : Context) : M (Client + ExtErr) :=
  emit EvNewAdminClient ;;; ret (NewAdminClient ctx).

(** [policy, err := retrieveAndInitializePolicy(ctx, client, provisioner)]:
    on success the pointer [policy] designates the retrieved document. *)
Definition retrievePolicy (ctx : Context) (client : Client) (provisioner : Provisioner)
  : M (unit + ExtErr) :=
  fun s =>
    match retrieveAndInitializePolicy ctx client provisioner with
    | inl p => (Next (inl tt), log EvRetrievePolicy {| policyObj := Some p; trace := trace s |})
    | inr e => (Next (inr e), log EvRetrievePolicy s)
    end.

(** [policy.<path> = addOrRemoveArguments(policy.<path>, args, shouldRemove)] *)
Definition assign (c : Field) (args : list string) (shouldRemove : bool) : M unit :=
  fun s =>
    match policyObj s with
    | Some p =>
        (Next tt,
         {| policyObj := Some (setField c (addOrRemoveArguments (getField c p) args shouldRemove) p);
            trace := trace s |})
    | None => (Panic "nil pointer dereference", s)
    end.

(** [updatePolicy(ctx, client, policy, provisioner)] *)
Definition sendPolicy (ctx : Context) (client : Client) (provisioner : Provisioner)
  : M (Policy + ExtErr) :=
  fun s =>
    match policyObj s with
    | Some p => (Next (updatePolicy ctx client p provisioner), log (EvUpdatePolicy p) s)
    | None => (Panic "nil pointer dereference", s)
    end.

(** [return prettyPrint(updatedPolicy)] *)
Definition returnPrettyPrint {A} (updatedPolicy : Policy) : M A :=
  emit (EvPrettyPrint updatedPolicy) ;;;
  return_ (option_map Ext (prettyPrint updatedPolicy)).

(** *** The six actions, statement by statement *)

Definition commonNameRegexAction (ctx : Context) : M Empty_set :=
  provisioner <- unsetProvisionerFlag ctx ;;
  let args := Args ctx in
  if Nat.eqb (length args) 0 then return_ (Some (Ext (TooFewArguments ctx))) else
  r <- newAdminClient ctx ;;
  client <- check r "error creating admin client" ;;
  r <- retrievePolicy ctx client provisioner ;;
  check r "error retrieving policy" ;;;
  let shouldRemove := Bool_remove ctx in
  (if IsSSHHostPolicy ctx then
     return_ (Some (ErrorsNew "SSH host policy does not support common name regex patterns"))
   else if IsSSHUserPolicy ctx then
     return_ (Some (ErrorsNew "SSH user policy does not support common name regex patterns"))
   else if IsX509Policy ctx then
     if IsAllow ctx then assign (PolicyX509 AllowList CommonNameRegex) args shouldRemove
     else if IsDeny ctx then assign (PolicyX509 DenyList CommonNameRegex) args shouldRemove
     else panic "no allow nor deny context set"
   else panic "no SSH nor X.509 context set") ;;;
  r <- sendPolicy ctx client provisioner ;;
  updatedPolicy <- check r "error updating policy" ;;
  returnPrettyPrint updatedPolicy.

Definition uriConstraintAction (ctx : Context) : M Empty_set :=
  provisioner <- unsetProvisionerFlag ctx ;;
  let args := Args ctx in
  if Nat.eqb (length args) 0 then return_ (Some (Ext (TooFewArguments ctx))) else
  r <- newAdminClient ctx ;;
  client <- check r "error creating admin client" ;;
  r <- retrievePolicy ctx client provisioner ;;
  check r "error retrieving policy" ;;;
  let shouldRemove := Bool_remove ctx in
  (if IsSSHHostPolicy ctx then
     return_ (Some (ErrorsNew "SSH host policy does not support URI constraints"))
   else if IsSSHUserPolicy ctx then
     return_ (Some (ErrorsNew "SSH user policy does not support URI constraints"))
   else if IsX509Policy ctx then
     if IsAllow ctx then assign (PolicyX509 AllowList UriConstraints) args shouldRemove
     else if IsDeny ctx then assign (PolicyX509 DenyList UriConstraints) args shouldRemove
     else panic "no allow nor deny context set"
   else panic "no SSH nor X.509 context set") ;;;
  r <- sendPolicy ctx client provisioner ;;
  updatedPolicy <- check r "error updating policy" ;;
  returnPrettyPrint updatedPolicy.

Definition emailRegexAction (ctx : Context) : M Empty_set :=
  provisioner <- unsetProvisionerFlag ctx ;;
  let args := Args ctx in
  if Nat.eqb (length args) 0 then return_ (Some (Ext (TooFewArguments ctx))) else
  r <- newAdminClient ctx ;;
  client <- check r "error creating admin client" ;;
  r <- retrievePolicy ctx client provisioner ;;
  check r "error retrieving policy" ;;;
  let shouldRemove := Bool_remove ctx in
  (if IsSSHHostPolicy ctx then
     return_ (Some (ErrorsNew "SSH host policy does not support email regex patterns"))
   else if IsSSHUserPolicy ctx then
     if IsAllow ctx then assign (PolicySshUser AllowList UserEmailRegex) args shouldRemove
     else if IsDeny ctx then assign (PolicySshUser DenyList UserEmailRegex) args shouldRemove
     else panic "no allow nor deny context set"
   else if IsX509Policy ctx then
     if IsAllow ctx then assign (PolicyX509 AllowList EmailRegex) args shouldRemove
     else if IsDeny ctx then assign (PolicyX509 DenyList EmailRegex) args shouldRemove
     else panic "no allow nor deny context set"
   else panic "no SSH nor X.509 context set") ;;;
  r <- sendPolicy ctx client provisioner ;;
  updatedPolicy <- check r "error updating policy" ;;
  returnPrettyPrint updatedPolicy.

Definition uriRegexAction (ctx : Context) : M Empty_set :=
  provisioner <- unsetProvisionerFlag ctx ;;
  let args := Args ctx in
  if Nat.eqb (length args) 0 then return_ (Some (Ext (TooFewArguments ctx))) else
  r <- newAdminClient ctx ;;
  client <- check r "error creating admin client" ;;
  r <- retrievePolicy ctx client provisioner ;;
  check r "error retrieving policy" ;;;
  let shouldRemove := Bool_remove ctx in
  (if IsSSHHostPolicy ctx then
     return_ (Some (ErrorsNew "SSH host policy does not support URI regex patterns"))
   else if IsSSHUserPolicy ctx then
     return_ (Some (ErrorsNew "SSH user policy does not support URI regex patterns"))
   else if IsX509Policy ctx then
     if IsAllow ctx then assign (PolicyX509 AllowList UriRegex) args shouldRemove
     else if IsDeny ctx then assign (PolicyX509 DenyList UriRegex) args shouldRemove
     else panic "no allow nor deny context set"
   else panic "no SSH nor X.509 context set") ;;;
  r <- sendPolicy ctx client provisioner ;;
  updatedPolicy <- check r "error updating policy" ;;
  returnPrettyPrint updatedPolicy.

Definition dnsRegexAction (ctx : Context) : M Empty_set :=
  provisioner <- unsetProvisionerFlag ctx ;;
  let args := Args ctx in
  if Nat.eqb (length args) 0 then return_ (Some (Ext (TooFewArguments ctx))) else
  r <- newAdminClient ctx ;;
  client <- check r "error creating admin client" ;;
  r <- retrievePolicy ctx client provisioner ;;
  check r "error retrieving policy" ;;;
  let shouldRemove := Bool_remove ctx in
  (if IsSSHHostPolicy ctx then
     if IsAllow ctx then assign (PolicySshHost AllowList HostDnsRegex) args shouldRemove
     else if IsDeny ctx then assign (PolicySshHost DenyList HostDnsRegex) args shouldRemove
     else panic "no allow nor deny context set"
   else if IsSSHUserPolicy ctx then
     return_ (Some (ErrorsNew "SSH user policy does not support DNS regex patterns"))
   else if IsX509Policy ctx then
     if IsAllow ctx then assign (PolicyX509 AllowList DnsRegex) args shouldRemove
     else if IsDeny ctx then assign (PolicyX509 DenyList DnsRegex) args shouldRemove
     else panic "no allow nor deny context set"
   else panic "no SSH nor X.509 context set") ;;;
  r <- sendPolicy ctx client provisioner ;;
  updatedPolicy <- check r "error updating policy" ;;
  returnPrettyPrint updatedPolicy.

Definition principalRegexAction (ctx : Context) : M Empty_set :=
  provisioner <- unsetProvisionerFlag ctx ;;
  let args := Args ctx in
  if Nat.eqb (length args) 0 then return_ (Some (Ext (TooFewArguments ctx))) else
  r <- newAdminClient ctx ;;
  client <- check r "error creating admin client" ;;
  r <- retrievePolicy ctx client provisioner ;;
  check r "error retrieving policy" ;;;
  let shouldRemove := Bool_remove ctx in
  (if IsSSHHostPolicy ctx then
     if IsAllow ctx then assign (PolicySshHost AllowList HostPrincipalRegex) args shouldRemove
     else if IsDeny ctx then assign (PolicySshHost DenyList HostPrincipalRegex) args shouldRemove
     else panic "no allow nor deny context set"
   else if IsSSHUserPolicy ctx then
     if IsAllow ctx then assign (PolicySshUser AllowList UserPrincipalRegex) args shouldRemove
     else if IsDeny ctx then assign (PolicySshUser DenyList UserPrincipalRegex) args shouldRemove
     else panic "no allow nor deny context set"
   else if IsX509Policy ctx then
     return_ (Some (ErrorsNew "X.509 policy does not support principal regex patterns"))
   else panic "no SSH nor X.509 context set") ;;;
  r <- sendPolicy ctx client provisioner ;;
  updatedPolicy <- check r "error updating policy" ;;
  returnPrettyPrint updatedPolicy.

(** *** Running an action *)

Inductive Outcome :=
| Returned (err : option error)
| Panicked (msg : string).

Definition fresh : Store := {| policyObj := None; trace := [] |}.

Definition run (m : M Empty_set) : Outcome * Store :=
  match m fresh with
  | (Next a, _) => match a with end
  | (Return e, s) => (Returned e, s)
  | (Panic msg, s) => (Panicked msg, s)
  end.

Definition action (cmd : Command) : Context -> M Empty_set :=
  match cmd with
  | CnRegex => commonNameRegexAction
  | UriConstraint => uriConstraintAction
  | EmailRegexCmd => emailRegexAction
  | UriRegexCmd => uriRegexAction
  | DnsRegexCmd => dnsRegexAction
  | PrincipalRegex => principalRegexAction
  end.

(** *** The dispatch read as a table *)

(** The branch the [switch] of every action selects: the first test that
    succeeds, in the order the tests are written. *)
Definition activeBranch (ctx : Context) : option PolicyBranch :=
  if IsSSHHostPolicy ctx then Some SSHHost
  else if IsSSHUserPolicy ctx then Some SSHUser
  else if IsX509Policy ctx then Some X509
  else None.

Definition activeList (ctx : Context) : option ListSel :=
  if IsAllow ctx then Some AllowList
  else if IsDeny ctx then Some DenyList
  else None.

(** The identifier kind a subcommand configures. *)
Definition kindOf (cmd : Command) : Kind :=
  match cmd with
  | CnRegex => CommonName
  | UriConstraint | UriRegexCmd => URI
  | EmailRegexCmd => Email
  | DnsRegexCmd => DNS
  | PrincipalRegex => SSHPrincipal
  end.

(** The rule list a subcommand assigns on a branch, when it has one there. *)
Definition fieldOf (cmd : Command) (b : PolicyBranch) : option (ListSel -> Field) :=
  match cmd, b with
  | CnRegex, X509 => Some (fun l => PolicyX509 l CommonNameRegex)
  | UriConstraint, X509 => Some (fun l => PolicyX509 l UriConstraints)
  | UriRegexCmd, X509 => Some (fun l => PolicyX509 l UriRegex)
  | EmailRegexCmd, X509 => Some (fun l => PolicyX509 l EmailRegex)
  | EmailRegexCmd, SSHUser => Some (fun l => PolicySshUser l UserEmailRegex)
  | DnsRegexCmd, X509 => Some (fun l => PolicyX509 l DnsRegex)
  | DnsRegexCmd, SSHHost => Some (fun l => PolicySshHost l HostDnsRegex)
  | PrincipalRegex, SSHHost => Some (fun l => PolicySshHost l HostPrincipalRegex)
  | PrincipalRegex, SSHUser => Some (fun l => PolicySshUser l UserPrincipalRegex)
  | _, _ => None
  end.

Definition branchName (b : PolicyBranch) : string :=
  match b with
  | X509 => "X.509"
  | SSHHost => "SSH host"
  | SSHUser => "SSH user"
  end.

Definition kindName (cmd : Command) : string :=
  match cmd with
  | CnRegex => "common name regex"
  | UriConstraint => "URI constraint"
  | EmailRegexCmd => "email regex"
  | UriRegexCmd => "URI regex"
  | DnsRegexCmd => "DNS regex"
  | PrincipalRegex => "principal regex"
  end.

(** The text of the rejection: branch, then kind. *)
Definition unsupported (cmd : Command) (b : PolicyBranch) : string :=
  (branchName b ++ " policy does not support " ++ kindName cmd
     ++ match cmd with UriConstraint => "s" | _ => " patterns" end)%string.

Definition reached : list Event := [EvUnsetProvisionerFlag; EvNewAdminClient; EvRetrievePolicy].

(** What an invocation amounts to, guard after guard. *)
Definition expected (cmd : Command) (ctx : Context) : Outcome * Store :=
  let provisioner := retrieveAndUnsetProvisionerFlagIfRequired ctx in
  match Args ctx with
  | [] =>
      (Returned (Some (Ext (TooFewArguments ctx))),
       {| policyObj := None; trace := [EvUnsetProvisionerFlag] |})
  | _ :: _ =>
      match NewAdminClient ctx with
      | inr e =>
          (Returned (Some (Errorf "error creating admin client" e)),
           {| policyObj := None; trace := [EvUnsetProvisionerFlag; EvNewAdminClient] |})
      | inl client =>
          match retrieveAndInitializePolicy ctx client provisioner with
          | inr e =>
              (Returned (Some (Errorf "error retrieving policy" e)),
               {| policyObj := None; trace := reached |})
          | inl p0 =>
              let untouched := {| policyObj := Some p0; trace := reached |} in
              match activeBranch ctx with
              | None => (Panicked "no SSH nor X.509 context set", untouched)
              | Some b =>
                  match fieldOf cmd b with
                  | None => (Returned (Some (ErrorsNew (unsupported cmd b))), untouched)
                  | Some f =>
                      match activeList ctx with
                      | None => (Panicked "no allow nor deny context set", untouched)
                      | Some l =>
                          let sent :=
                            setField (f l)
                              (addOrRemoveArguments (getField (f l) p0) (Args ctx) (Bool_remove ctx)) p0 in
                          match updatePolicy ctx client sent provisioner with
                          | inr e =>
                              (Returned (Some (Errorf "error updating policy" e)),
                               {| policyObj := Some sent; trace := reached ++ [EvUpdatePolicy sent] |})
                          | inl updatedPolicy =>
                              (Returned (option_map Ext (prettyPrint updatedPolicy)),
                               {| policyObj := Some sent;
                                  trace := reached ++ [EvUpdatePolicy sent; EvPrettyPrint updatedPolicy] |})
                          end
                      end
                  end
              end
          end
      end
  end.

(** *** Proofs about the actions *)

Lemma fieldOf_legal (cmd : Command) (b : PolicyBranch) :
  fieldOf cmd b = None <-> legal b (kindOf cmd) = false.
Proof.
  destruct cmd, b; simpl; split; intro H; try reflexivity; discriminate H.
Qed.


Ltac run_cases ctx :=
  unfold run, expected, action,
    commonNameRegexAction, uriConstraintAction, emailRegexAction,
    uriRegexAction, dnsRegexAction, principalRegexAction,
    activeBranch, activeList, fieldOf, unsupported, reached,
    unsetProvisionerFlag, newAdminClient, retrievePolicy, sendPolicy,
    returnPrettyPrint, assign, check, emit, bind, ret, return_, panic, log, fresh;
  destruct ctx as [host user x509 allowed denied args rm]; cbn [Args Bool_remove
    IsSSHHostPolicy IsSSHUserPolicy IsX509Policy IsAllow IsDeny policyObj trace app];
  destruct args as [|a args]; cbn [length Nat.eqb app]; [reflexivity|];
  match goal with |- context [NewAdminClient ?c] => destruct (NewAdminClient c) as [client|e] end;
  cbn [policyObj trace app]; [|reflexivity];
  match goal with
  | |- context [retrieveAndInitializePolicy ?c ?k ?p] =>
      destruct (retrieveAndInitializePolicy c k p) as [p0|e]
  end;
  cbn [policyObj trace app]; [|reflexivity];
  destruct host, user, x509, allowed, denied;
  cbn [policyObj trace app branchName kindName String.append]; try reflexivity;
  match goal with
  | |- context [updatePolicy ?c ?k ?d ?p] => destruct (updatePolicy c k d p) as [up|e]
  end;
  cbn [policyObj trace app]; reflexivity.

(** Each action runs as the table says. *)
Lemma run_action (cmd : Command) (ctx : Context) :
  run (action cmd ctx) = expected cmd ctx.
Proof.
  destruct cmd; run_cases ctx.
Qed.

(** C9.  With no positional argument each of the six actions returns the
    too-few-arguments error, and by then it has only read the provisioner
    flag: no admin client was created, no policy was retrieved (the policy
    object does not exist yet), nothing was assigned, and neither
    [updatePolicy] nor [prettyPrint] was called. *)
Theorem too_few_arguments_first (cmd : Command) (ctx : Context) :
  Args ctx = [] ->
  run (action cmd ctx) =
    (Returned (Some (Ext (TooFewArguments ctx))),
     {| policyObj := None; trace := [EvUnsetProvisionerFlag] |}).
Proof.
  intro Hargs.
  rewrite run_action.
  unfold expected.
  rewrite Hargs.
  reflexivity.
Qed.


(** Assigning a field changes that field and nothing else. *)
Lemma getField_setField_same (c : Field) (v : list string) (p : Policy) :
  getField c (setField c v p) = v.
Proof.
  destruct c as [[] []|[] []|[] []]; reflexivity.
Qed.

Lemma getField_setField_other (c c' : Field) (v : list string) (p : Policy) :
  c' <> c -> getField c' (setField c v p) = getField c' p.
Proof.
  intro Hne.
  destruct c as [[] []|[] []|[] []], c' as [[] []|[] []|[] []];
    try reflexivity; contradiction Hne; reflexivity.
Qed.

Lemma otherParts_setField (c : Field) (v : list string) (p : Policy) :
  otherParts (setField c v p) = otherParts p.
Proof.
  destruct c as [[] []|[] []|[] []]; reflexivity.
Qed.

(** C10.  An invocation that succeeds has sent to [updatePolicy], once, the
    retrieved document with one rule list replaced by what
    [addOrRemoveArguments] returned for it: the list of the active branch,
    the active allow or deny side and the command's kind.  Every other rule
    list and every other part of the document is as retrieved. *)
Theorem exactly_one_field_assigned (cmd : Command) (ctx : Context) (s : Store) :
  run (action cmd ctx) = (Returned None, s) ->
  exists b l f client p0 updatedPolicy,
    activeBranch ctx = Some b /\ activeList ctx = Some l /\ fieldOf cmd b = Some f /\
    legal b (kindOf cmd) = true /\
    NewAdminClient ctx = inl client /\
    retrieveAndInitializePolicy ctx client (retrieveAndUnsetProvisionerFlagIfRequired ctx)
      = inl p0 /\
    let sent :=
      setField (f l) (addOrRemoveArguments (getField (f l) p0) (Args ctx) (Bool_remove ctx)) p0 in
    trace s = reached ++ [EvUpdatePolicy sent; EvPrettyPrint updatedPolicy] /\
    getField (f l) sent = addOrRemoveArguments (getField (f l) p0) (Args ctx) (Bool_remove ctx) /\
    (forall c', c' <> f l -> getField c' sent = getField c' p0) /\
    otherParts sent = otherParts p0.
Proof.
  rewrite run_action.
  unfold expected.
  intro Hrun.
  destruct (Args ctx) as [|a args] eqn:Ha; [discriminate Hrun|].
  destruct (NewAdminClient ctx) as [client|e] eqn:Hc; [|discriminate Hrun].
  destruct (retrieveAndInitializePolicy ctx client _) as [p0|e] eqn:Hr; [|discriminate Hrun].
  destruct (activeBranch ctx) as [b|] eqn:Hb; [|discriminate Hrun].
  destruct (fieldOf cmd b) as [f|] eqn:Hf; [|discriminate Hrun].
  destruct (activeList ctx) as [l|] eqn:Hl; [|discriminate Hrun].
  destruct (updatePolicy ctx client _ _) as [up|e] eqn:Hu; [|discriminate Hrun].
  injection Hrun as Hout Hs.
  exists b, l, f, client, p0, up.
  split; [reflexivity|].
  split; [reflexivity|].
  split; [exact Hf|].
  split.
  { destruct (legal b (kindOf cmd)) eqn:Hleg; [reflexivity|].
    apply fieldOf_legal in Hleg. rewrite Hleg in Hf. discriminate Hf. }
  split; [reflexivity|].
  split; [exact Hr|].
  cbv zeta.
  split; [rewrite <- Hs; reflexivity|].
  split; [apply getField_setField_same|].
  split; [intros c' Hne; apply getField_setField_other; exact Hne|].
  apply otherParts_setField.
Qed.


(** ** Further properties of the actions *)

Lemma setField_getField (c : Field) (p : Policy) : setField c (getField c p) p = p.
Proof.
  destruct p as [[xa xd xr] [[ha hd hr] [ua ud ur] sr] pr].
  destruct c as [[] []|[] []|[] []]; simpl;
    try (destruct xa; reflexivity); try (destruct xd; reflexivity);
    try (destruct ha; reflexivity); try (destruct hd; reflexivity);
    try (destruct ua; reflexivity); try (destruct ud; reflexivity).
Qed.

(** No two subcommands select the same rule list. *)
Lemma fieldOf_injective (cmd cmd' : Command) (b b' : PolicyBranch) (l l' : ListSel)
    (f f' : ListSel -> Field) :
  fieldOf cmd b = Some f -> fieldOf cmd' b' = Some f' -> f l = f' l' -> cmd = cmd'.
Proof.
  intros Hf Hf' Heq.
  destruct cmd, b; try discriminate Hf; injection Hf as <-;
    destruct cmd', b'; try discriminate Hf'; injection Hf' as <-;
    try reflexivity; discriminate Heq.
Qed.

(** X1.  Once an argument is given, a failure of [cautils.NewAdminClient]
    ends every action with "error creating admin client: ..." before the
    policy is retrieved, and a failure of [retrieveAndInitializePolicy] ends
    it with "error retrieving policy: ..." before anything is assigned or
    sent; this is so whatever the branch and allow/deny flags are, set or
    not. *)
Theorem collaborator_failure_stops (cmd : Command) (ctx : Context) :
  Args ctx <> [] ->
  (forall e, NewAdminClient ctx = inr e ->
     run (action cmd ctx) =
       (Returned (Some (Errorf "error creating admin client" e)),
        {| policyObj := None; trace := [EvUnsetProvisionerFlag; EvNewAdminClient] |})) /\
  (forall client e,
     NewAdminClient ctx = inl client ->
     retrieveAndInitializePolicy ctx client (retrieveAndUnsetProvisionerFlagIfRequired ctx)
       = inr e ->
     run (action cmd ctx) =
       (Returned (Some (Errorf "error retrieving policy" e)),
        {| policyObj := None; trace := reached |})).
Proof.
  intro Hargs.
  rewrite run_action. unfold expected.
  destruct (Args ctx) as [|a args]; [contradiction Hargs; reflexivity|].
  split.
  - intros e Hc. rewrite Hc. reflexivity.
  - intros client e Hc Hr. rewrite Hc, Hr. reflexivity.
Qed.

(** X2.  The collaborators are called in one fixed order and at most once
    each: whatever the invocation, the calls made are an initial part of
    flag, admin client, retrieval, update, print.  A document is sent only
    after a successful retrieval and is the retrieved one with the selected
    field reassigned; a document is printed only after a successful update
    and is the one [updatePolicy] returned. *)
Theorem calls_in_order (cmd : Command) (ctx : Context) :
  let s := snd (run (action cmd ctx)) in
  (trace s = [EvUnsetProvisionerFlag] \/
   trace s = [EvUnsetProvisionerFlag; EvNewAdminClient] \/
   trace s = reached \/
   (exists sent, trace s = reached ++ [EvUpdatePolicy sent]) \/
   (exists sent shown, trace s = reached ++ [EvUpdatePolicy sent; EvPrettyPrint shown])) /\
  (forall sent, In (EvUpdatePolicy sent) (trace s) ->
     exists client p0 b l f,
       NewAdminClient ctx = inl client /\
       retrieveAndInitializePolicy ctx client (retrieveAndUnsetProvisionerFlagIfRequired ctx)
         = inl p0 /\
       activeBranch ctx = Some b /\ activeList ctx = Some l /\ fieldOf cmd b = Some f /\
       sent = setField (f l)
                (addOrRemoveArguments (getField (f l) p0) (Args ctx) (Bool_remove ctx)) p0) /\
  (forall shown, In (EvPrettyPrint shown) (trace s) ->
     exists client sent,
       NewAdminClient ctx = inl client /\
       In (EvUpdatePolicy sent) (trace s) /\
       updatePolicy ctx client sent (retrieveAndUnsetProvisionerFlagIfRequired ctx)
         = inl shown).
Proof.
  rewrite run_action. unfold expected.
  destruct (Args ctx) as [|a args] eqn:Ha.
  { simpl. split; [left; reflexivity|].
    split; intros x [H|[]]; discriminate H. }
  destruct (NewAdminClient ctx) as [client|e] eqn:Hc.
  2:{ simpl. split; [right; left; reflexivity|].
      split; intros x [H|[H|[]]]; discriminate H. }
  destruct (retrieveAndInitializePolicy ctx client _) as [p0|e] eqn:Hr.
  2:{ simpl. split; [right; right; left; reflexivity|].
      split; intros x [H|[H|[H|[]]]]; discriminate H. }
  destruct (activeBranch ctx) as [b|] eqn:Hb.
  2:{ simpl. split; [right; right; left; reflexivity|].
      split; intros x [H|[H|[H|[]]]]; discriminate H. }
  destruct (fieldOf cmd b) as [f|] eqn:Hf.
  2:{ simpl. split; [right; right; left; reflexivity|].
      split; intros x [H|[H|[H|[]]]]; discriminate H. }
  destruct (activeList ctx) as [l|] eqn:Hl.
  2:{ simpl. split; [right; right; left; reflexivity|].
      split; intros x [H|[H|[H|[]]]]; discriminate H. }
  destruct (updatePolicy ctx client _ _) as [up|e] eqn:Hu.
  - simpl. split.
    { right; right; right; right. eexists. eexists. reflexivity. }
    split.
    + intros sent [H|[H|[H|[H|[H|[]]]]]]; try discriminate H.
      injection H as <-.
      exists client, p0, b, l, f. repeat split; (reflexivity || assumption).
    + intros shown [H|[H|[H|[H|[H|[]]]]]]; try discriminate H.
      injection H as <-.
      eexists client, _. split; [reflexivity|].
      split; [right; right; right; left; reflexivity|exact Hu].
  - simpl. split.
    { right; right; right; left. eexists. reflexivity. }
    split.
    + intros sent [H|[H|[H|[H|[]]]]]; try discriminate H.
      injection H as <-.
      exists client, p0, b, l, f. repeat split; (reflexivity || assumption).
    + intros shown [H|[H|[H|[H|[]]]]]; discriminate H.
Qed.


(** X4.  Where several flags are set the first case of each [switch]
    decides: SSH host before SSH user before X.509, allow before deny.  With
    the guards passed, the policy object ends as the retrieved document
    with the field of that branch and side reassigned, or untouched when
    that branch does not support the command. *)
Theorem first_case_decides
    (cmd : Command) (ctx : Context) (b : PolicyBranch) (l : ListSel)
    (client : Client) (p0 : Policy) :
  Args ctx <> [] ->
  NewAdminClient ctx = inl client ->
  retrieveAndInitializePolicy ctx client (retrieveAndUnsetProvisionerFlagIfRequired ctx)
    = inl p0 ->
  (IsSSHHostPolicy ctx = true /\ b = SSHHost \/
   IsSSHHostPolicy ctx = false /\ IsSSHUserPolicy ctx = true /\ b = SSHUser \/
   IsSSHHostPolicy ctx = false /\ IsSSHUserPolicy ctx = false /\ IsX509Policy ctx = true /\
     b = X509) ->
  (IsAllow ctx = true /\ l = AllowList \/
   IsAllow ctx = false /\ IsDeny ctx = true /\ l = DenyList) ->
  match fieldOf cmd b with
  | Some f =>
      policyObj (snd (run (action cmd ctx)))
        = Some (setField (f l)
                  (addOrRemoveArguments (getField (f l) p0) (Args ctx) (Bool_remove ctx)) p0)
  | None =>
      run (action cmd ctx)
        = (Returned (Some (ErrorsNew (unsupported cmd b))),
           {| policyObj := Some p0; trace := reached |})
  end.
Proof.
  intros Hargs Hc Hr Hbranch Hlist.
  rewrite run_action. unfold expected.
  destruct (Args ctx) as [|a args] eqn:Ha; [contradiction Hargs; reflexivity|].
  rewrite Hc, Hr.
  assert (Hb : activeBranch ctx = Some b).
  { unfold activeBranch.
    destruct Hbranch as [[H1 ->]|[[H1 [H2 ->]]|[H1 [H2 [H3 ->]]]]].
    - rewrite H1. reflexivity.
    - rewrite H1, H2. reflexivity.
    - rewrite H1, H2, H3. reflexivity. }
  assert (Hl : activeList ctx = Some l).
  { unfold activeList.
    destruct Hlist as [[H1 ->]|[H1 [H2 ->]]].
    - rewrite H1. reflexivity.
    - rewrite H1, H2. reflexivity. }
  rewrite Hb.
  destruct (fieldOf cmd b) as [f|]; [|reflexivity].
  rewrite Hl.
  destruct (updatePolicy ctx client _ _); reflexivity.
Qed.

(** X5.  The actions do not compare the new list with the old one: when
    [addOrRemoveArguments] returns the list as it was, the document is sent
    to [updatePolicy] all the same, exactly as it was retrieved. *)
Theorem unchanged_list_still_sent
    (cmd : Command) (ctx : Context) (b : PolicyBranch) (l : ListSel)
    (f : ListSel -> Field) (client : Client) (p0 : Policy) :
  Args ctx <> [] ->
  NewAdminClient ctx = inl client ->
  retrieveAndInitializePolicy ctx client (retrieveAndUnsetProvisionerFlagIfRequired ctx)
    = inl p0 ->
  activeBranch ctx = Some b ->
  activeList ctx = Some l ->
  fieldOf cmd b = Some f ->
  addOrRemoveArguments (getField (f l) p0) (Args ctx) (Bool_remove ctx) = getField (f l) p0 ->
  In (EvUpdatePolicy p0) (trace (snd (run (action cmd ctx)))) /\
  policyObj (snd (run (action cmd ctx))) = Some p0.
Proof.
  intros Hargs Hc Hr Hb Hl Hf Hsame.
  rewrite run_action. unfold expected.
  destruct (Args ctx) as [|a args] eqn:Ha; [contradiction Hargs; reflexivity|].
  rewrite Hc, Hr, Hb, Hf, Hl, Hsame, setField_getField.
  destruct (updatePolicy ctx client p0 _); simpl.
  - split; [|reflexivity]. right. right. right. left. reflexivity.
  - split; [|reflexivity]. right. right. right. left. reflexivity.
Qed.

(** X6.  When [updatePolicy] has accepted the document and [prettyPrint]
    then fails, the action returns the error of [prettyPrint] as it came,
    although the update has gone through; and an error returned once
    [prettyPrint] has been called is always that error. *)
Theorem print_failure_after_update (cmd : Command) (ctx : Context) :
  (forall b l f client p0 updatedPolicy e,
     Args ctx <> [] ->
     NewAdminClient ctx = inl client ->
     retrieveAndInitializePolicy ctx client (retrieveAndUnsetProvisionerFlagIfRequired ctx)
       = inl p0 ->
     activeBranch ctx = Some b ->
     activeList ctx = Some l ->
     fieldOf cmd b = Some f ->
     let sent :=
       setField (f l)
         (addOrRemoveArguments (getField (f l) p0) (Args ctx) (Bool_remove ctx)) p0 in
     updatePolicy ctx client sent (retrieveAndUnsetProvisionerFlagIfRequired ctx)
       = inl updatedPolicy ->
     prettyPrint updatedPolicy = Some e ->
     run (action cmd ctx) =
       (Returned (Some (Ext e)),
        {| policyObj := Some sent;
           trace := reached ++ [EvUpdatePolicy sent; EvPrettyPrint updatedPolicy] |}) /\
     Error (Ext e) = e) /\
  (forall err shown,
     fst (run (action cmd ctx)) = Returned (Some err) ->
     In (EvPrettyPrint shown) (trace (snd (run (action cmd ctx)))) ->
     exists client sent e,
       NewAdminClient ctx = inl client /\
       In (EvUpdatePolicy sent) (trace (snd (run (action cmd ctx)))) /\
       updatePolicy ctx client sent (retrieveAndUnsetProvisionerFlagIfRequired ctx)
         = inl shown /\
       prettyPrint shown = Some e /\
       err = Ext e).
Proof.
  rewrite run_action. unfold expected.
  split.
  - intros b l f client p0 up e Hargs Hc Hr Hb Hl Hf Hu Hp.
    destruct (Args ctx) as [|a args] eqn:Ha; [contradiction Hargs; reflexivity|].
    rewrite Hc, Hr, Hb, Hf, Hl, Hu. simpl. rewrite Hp.
    split; reflexivity.
  - intros err shown Herr Hin.
    destruct (Args ctx) as [|a args] eqn:Ha.
    { simpl in Hin. destruct Hin as [H|[]]. discriminate H. }
    destruct (NewAdminClient ctx) as [client|e] eqn:Hc.
    2:{ simpl in Hin. destruct Hin as [H|[H|[]]]; discriminate H. }
    destruct (retrieveAndInitializePolicy ctx client _) as [p0|e].
    2:{ simpl in Hin. destruct Hin as [H|[H|[H|[]]]]; discriminate H. }
    destruct (activeBranch ctx) as [b|].
    2:{ simpl in Hin. destruct Hin as [H|[H|[H|[]]]]; discriminate H. }
    destruct (fieldOf cmd b) as [f|].
    2:{ simpl in Hin. destruct Hin as [H|[H|[H|[]]]]; discriminate H. }
    destruct (activeList ctx) as [l|].
    2:{ simpl in Hin. destruct Hin as [H|[H|[H|[]]]]; discriminate H. }
    destruct (updatePolicy ctx client _ _) as [up|e] eqn:Hu.
    2:{ simpl in Hin. destruct Hin as [H|[H|[H|[H|[]]]]]; discriminate H. }
    simpl in Hin. destruct Hin as [H|[H|[H|[H|[H|[]]]]]]; try discriminate H.
    injection H as <-.
    destruct (prettyPrint up) as [e|] eqn:Hp; [|discriminate Herr].
    injection Herr as <-.
    eexists client, _, e.
    split; [reflexivity|].
    split; [simpl; right; right; right; left; reflexivity|].
    split; [exact Hu|].
    split; reflexivity.
Qed.

(** X7.  An action returns nil exactly when every step succeeds: an
    argument is given, the admin client is created, the policy is retrieved,
    the branch supports the command, allow or deny is set, the update is
    accepted and the result is printed. *)
Theorem succeeds_iff (cmd : Command) (ctx : Context) :
  fst (run (action cmd ctx)) = Returned None <->
  Args ctx <> [] /\
  exists client p0 b l f updatedPolicy,
    NewAdminClient ctx = inl client /\
    retrieveAndInitializePolicy ctx client (retrieveAndUnsetProvisionerFlagIfRequired ctx)
      = inl p0 /\
    activeBranch ctx = Some b /\ fieldOf cmd b = Some f /\ activeList ctx = Some l /\
    updatePolicy ctx client
      (setField (f l)
         (addOrRemoveArguments (getField (f l) p0) (Args ctx) (Bool_remove ctx)) p0)
      (retrieveAndUnsetProvisionerFlagIfRequired ctx) = inl updatedPolicy /\
    prettyPrint updatedPolicy = None.
Proof.
  rewrite run_action. unfold expected.
  split.
  - intro H.
    destruct (Args ctx) as [|a args] eqn:Ha; [discriminate H|].
    split; [discriminate|].
    destruct (NewAdminClient ctx) as [client|e]; [|discriminate H].
    destruct (retrieveAndInitializePolicy ctx client _) as [p0|e] eqn:Hr; [|discriminate H].
    destruct (activeBranch ctx) as [b|]; [|discriminate H].
    destruct (fieldOf cmd b) as [f|] eqn:Hf; [|discriminate H].
    destruct (activeList ctx) as [l|]; [|discriminate H].
    destruct (updatePolicy ctx client _ _) as [up|e] eqn:Hu; [|discriminate H].
    destruct (prettyPrint up) as [e|] eqn:Hp; [discriminate H|].
    exists client, p0, b, l, f, up.
    split; [reflexivity|].
    split; [exact Hr|].
    split; [reflexivity|].
    split; [exact Hf|].
    split; [reflexivity|].
    split; [exact Hu|exact Hp].
  - intros [Hargs (client & p0 & b & l & f & up & Hc & Hr & Hb & Hf & Hl & Hu & Hp)].
    destruct (Args ctx) as [|a args] eqn:Ha; [contradiction Hargs; reflexivity|].
    rewrite Hc, Hr, Hb, Hf, Hl, Hu. simpl. rewrite Hp. reflexivity.
Qed.

(** X8.  The errors an action can return are these and no others: the
    too-few-arguments error when no argument is given; "error creating
    admin client", "error retrieving policy" and "error updating policy",
    each wrapping the error of the collaborator that failed; the error of a
    branch that does not support the command; and the error of
    [prettyPrint] as it came. *)
Theorem errors_enumerated (cmd : Command) (ctx : Context) (err : error) :
  fst (run (action cmd ctx)) = Returned (Some err) ->
  (Args ctx = [] /\ err = Ext (TooFewArguments ctx)) \/
  (exists e, NewAdminClient ctx = inr e /\ err = Errorf "error creating admin client" e) \/
  (exists client e,
     NewAdminClient ctx = inl client /\
     retrieveAndInitializePolicy ctx client (retrieveAndUnsetProvisionerFlagIfRequired ctx)
       = inr e /\
     err = Errorf "error retrieving policy" e) \/
  (exists b, activeBranch ctx = Some b /\ legal b (kindOf cmd) = false /\
     err = ErrorsNew (unsupported cmd b)) \/
  (exists client sent e,
     updatePolicy ctx client sent (retrieveAndUnsetProvisionerFlagIfRequired ctx) = inr e /\
     err = Errorf "error updating policy" e) \/
  (exists updatedPolicy e, prettyPrint updatedPolicy = Some e /\ err = Ext e).
Proof.
  rewrite run_action. unfold expected.
  intro H.
  destruct (Args ctx) as [|a args] eqn:Ha.
  { left. injection H as <-. split; reflexivity. }
  right.
  destruct (NewAdminClient ctx) as [client|e] eqn:Hc.
  2:{ left. exists e. injection H as <-. split; reflexivity. }
  right.
  destruct (retrieveAndInitializePolicy ctx client _) as [p0|e] eqn:Hr.
  2:{ left. exists client, e. injection H as <-. repeat split; [exact Hr]. }
  right.
  destruct (activeBranch ctx) as [b|] eqn:Hb; [|discriminate H].
  destruct (fieldOf cmd b) as [f|] eqn:Hf.
  2:{ left. exists b. injection H as <-.
      split; [reflexivity|]. split; [apply fieldOf_legal; exact Hf|reflexivity]. }
  right.
  destruct (activeList ctx) as [l|]; [|discriminate H].
  destruct (updatePolicy ctx client _ _) as [up|e] eqn:Hu.
  - right. destruct (prettyPrint up) as [e|] eqn:Hp; [|discriminate H].
    exists up, e. injection H as <-. split; [exact Hp|reflexivity].
  - left. eexists client, _, e. injection H as <-. split; [exact Hu|reflexivity].
Qed.

(** X9.  A rule list is edited by one subcommand only: whatever document an
    action sends to [updatePolicy], every rule list that another subcommand
    edits, on any branch and side, is in it as it was retrieved. *)
Theorem other_commands_lists_untouched
    (cmd cmd' : Command) (ctx : Context) (sent : Policy)
    (b' : PolicyBranch) (l' : ListSel) (f' : ListSel -> Field) :
  cmd <> cmd' ->
  fieldOf cmd' b' = Some f' ->
  In (EvUpdatePolicy sent) (trace (snd (run (action cmd ctx)))) ->
  exists client p0,
    NewAdminClient ctx = inl client /\
    retrieveAndInitializePolicy ctx client (retrieveAndUnsetProvisionerFlagIfRequired ctx)
      = inl p0 /\
    getField (f' l') sent = getField (f' l') p0.
Proof.
  intros Hne Hf'.
  rewrite run_action. unfold expected.
  destruct (Args ctx) as [|a args].
  { simpl. intros [H|[]]. discriminate H. }
  destruct (NewAdminClient ctx) as [client|e].
  2:{ simpl. intros [H|[H|[]]]; discriminate H. }
  destruct (retrieveAndInitializePolicy ctx client _) as [p0|e] eqn:Hr.
  2:{ simpl. intros [H|[H|[H|[]]]]; discriminate H. }
  destruct (activeBranch ctx) as [b|].
  2:{ simpl. intros [H|[H|[H|[]]]]; discriminate H. }
  destruct (fieldOf cmd b) as [f|] eqn:Hf.
  2:{ simpl. intros [H|[H|[H|[]]]]; discriminate H. }
  destruct (activeList ctx) as [l|].
  2:{ simpl. intros [H|[H|[H|[]]]]; discriminate H. }
  assert (Hother : forall v, getField (f' l') (setField (f l) v p0) = getField (f' l') p0).
  { intro v. apply getField_setField_other.
    intro Heq. apply Hne.
    exact (fieldOf_injective cmd cmd' b b' l l' f f' Hf Hf' (eq_sym Heq)). }
  destruct (updatePolicy ctx client _ _); simpl;
    intros [H|[H|[H|[H|H]]]]; try discriminate H.
  - injection H as <-. exists client, p0. split; [reflexivity|]. split; [exact Hr|]. apply Hother.
  - destruct H as [H|[]]. discriminate H.
  - injection H as <-. exists client, p0. split; [reflexivity|]. split; [exact Hr|]. apply Hother.
  - destruct H.
Qed.

End Collaborators.

Arguments policyObj {Rest} s.
Arguments trace {Rest} s.
Arguments getField {Rest} c p.
Arguments setField {Rest} c v p.
Arguments otherParts {Rest} p.
Arguments reached {Rest}.
Arguments EvUnsetProvisionerFlag {Rest}.
Arguments EvUpdatePolicy {Rest} sent.
Arguments EvPrettyPrint {Rest} shown.

(** ** Two concrete settings *)

Definition noX509Names : X509Names unit := Build_X509Names unit [] [] [] [] [] tt.
Definition noHostNames : SSHHostNames unit := Build_SSHHostNames unit [] [] tt.
Definition noUserNames : SSHUserNames unit := Build_SSHUserNames unit [] [] tt.

(** The document of an authority that has no rule yet. *)
Definition blankPolicy : Policy unit :=
  Build_Policy unit
    (Build_X509Policy unit noX509Names noX509Names tt)
    (Build_SSHPolicy unit
       (Build_SSHHostPolicy unit noHostNames noHostNames tt)
       (Build_SSHUserPolicy unit noUserNames noUserNames tt) tt)
    tt.

Definition noProvisioner (ctx : Context) : Provisioner := "".
Definition tooFew (ctx : Context) : ExtErr := "too few arguments".
Definition reachable (ctx : Context) : unit + ExtErr := inl tt.
Definition unreachable (ctx : Context) : unit + ExtErr := inr "connection refused".
Definition retrieveBlank (ctx : Context) (client : unit) (provisioner : Provisioner)
  : Policy unit + ExtErr := inl blankPolicy.
Definition acceptUpdate (ctx : Context) (client : unit) (p : Policy unit)
    (provisioner : Provisioner) : Policy unit + ExtErr := inl p.
Definition printOk (p : Policy unit) : option ExtErr := None.

(** A CA that answers and takes every update; rule lists are edited by
    [RuleList.addOrRemoveArguments]. *)
Definition online (cmd : Command) (ctx : Context) : Outcome * Store unit :=
  run unit
    (action unit unit noProvisioner tooFew reachable retrieveBlank acceptUpdate printOk
       RuleList.addOrRemoveArguments cmd ctx).

(** A CA that answers and refuses every update. *)
Definition refuseUpdate (ctx : Context) (client : unit) (p : Policy unit)
    (provisioner : Provisioner) : Policy unit + ExtErr := inr "invalid pattern".


(** A CA that cannot be reached. *)
Definition offline (cmd : Command) (ctx : Context) : Outcome * Store unit :=
  run unit
    (action unit unit noProvisioner tooFew unreachable retrieveBlank acceptUpdate printOk
       RuleList.addOrRemoveArguments cmd ctx).

Definition invocation (b : PolicyBranch) (l : ListSel) (args : list string) (rm : bool)
  : Context :=
  {| IsSSHHostPolicy := PolicyBranch_eqb b SSHHost;
     IsSSHUserPolicy := PolicyBranch_eqb b SSHUser;
     IsX509Policy := PolicyBranch_eqb b X509;
     IsAllow := match l with AllowList => true | DenyList => false end;
     IsDeny := match l with AllowList => false | DenyList => true end;
     Args := args;
     Bool_remove := rm |}.

(** ** Instances and counterexamples *)

Lemma too_few_arguments_first_witness :
  online DnsRegexCmd (invocation SSHHost DenyList [] false)
    = (Returned (Some (Ext "too few arguments")),
       {| policyObj := None; trace := [EvUnsetProvisionerFlag] |}).
Proof.
  apply (too_few_arguments_first unit unit noProvisioner tooFew reachable retrieveBlank
           acceptUpdate printOk RuleList.addOrRemoveArguments
           DnsRegexCmd (invocation SSHHost DenyList [] false)).
  reflexivity.
Defined.





Lemma exactly_one_field_assigned_witness :
  exists b l f client p0 updatedPolicy,
    let ctx := invocation SSHHost DenyList ["^root$"] false in
    activeBranch ctx = Some b /\ activeList ctx = Some l /\
    fieldOf PrincipalRegex b = Some f /\
    legal b (kindOf PrincipalRegex) = true /\
    reachable ctx = inl client /\
    retrieveBlank ctx client (noProvisioner ctx) = inl p0 /\
    let sent :=
      setField (f l)
        (RuleList.addOrRemoveArguments (getField (f l) p0) (Args ctx) (Bool_remove ctx))
        p0 in
    reached ++ [EvUpdatePolicy sent; EvPrettyPrint sent]
      = reached ++ [EvUpdatePolicy sent; EvPrettyPrint updatedPolicy] /\
    getField (f l) sent
      = RuleList.addOrRemoveArguments (getField (f l) p0) (Args ctx) (Bool_remove ctx) /\
    (forall c', c' <> f l -> getField c' sent = getField c' p0) /\
    otherParts sent = otherParts p0.
Proof.
  pose (ctx := invocation SSHHost DenyList ["^root$"] false).
  pose (sent := setField (PolicySshHost DenyList HostPrincipalRegex) ["^root$"] blankPolicy).
  destruct (exactly_one_field_assigned unit unit noProvisioner tooFew reachable retrieveBlank
              acceptUpdate printOk RuleList.addOrRemoveArguments
              PrincipalRegex ctx
              {| policyObj := Some sent;
                 trace := reached ++ [EvUpdatePolicy sent; EvPrettyPrint sent] |}
              eq_refl)
    as (b & l & f & client & p0 & up & Hb & Hl & Hf & Hleg & Hc & Hr & Hrest).
  injection Hb as <-. injection Hl as <-. injection Hf as <-. injection Hr as <-.
  exists SSHHost, DenyList, (fun l => PolicySshHost l HostPrincipalRegex), client, blankPolicy, up.
  repeat (split; [reflexivity|]).
  split; [exact Hc|].
  split; [reflexivity|].
  exact Hrest.
Defined.

(** ** Instances of the further properties *)

Arguments EvNewAdminClient {Rest}.
Arguments EvRetrievePolicy {Rest}.

Definition retrieveFails (ctx : Context) (client : unit) (provisioner : Provisioner)
  : Policy unit + ExtErr := inr "policy not found".
Definition printFails (p : Policy unit) : option ExtErr := Some "broken pipe".

(** An invocation whose context carries no branch and no allow/deny flag. *)
Definition bare (args : list string) : Context :=
  {| IsSSHHostPolicy := false; IsSSHUserPolicy := false; IsX509Policy := false;
     IsAllow := false; IsDeny := false; Args := args; Bool_remove := false |}.

(** An invocation whose context carries every flag at once. *)
Definition crowded (args : list string) : Context :=
  {| IsSSHHostPolicy := true; IsSSHUserPolicy := true; IsX509Policy := true;
     IsAllow := true; IsDeny := true; Args := args; Bool_remove := false |}.

Lemma collaborator_failure_stops_witness :
  offline CnRegex (bare ["^a$"])
    = (Returned (Some (Errorf "error creating admin client" "connection refused")),
       {| policyObj := None; trace := [EvUnsetProvisionerFlag; EvNewAdminClient] |}) /\
  run unit
    (action unit unit noProvisioner tooFew reachable retrieveFails acceptUpdate printOk
       RuleList.addOrRemoveArguments PrincipalRegex (bare ["^a$"]))
    = (Returned (Some (Errorf "error retrieving policy" "policy not found")),
       {| policyObj := None; trace := reached |}).
Proof.
  split.
  - apply (proj1 (collaborator_failure_stops unit unit noProvisioner tooFew unreachable
                    retrieveBlank acceptUpdate printOk RuleList.addOrRemoveArguments
                    CnRegex (bare ["^a$"]) ltac:(discriminate))
             "connection refused"%string).
    reflexivity.
  - apply (proj2 (collaborator_failure_stops unit unit noProvisioner tooFew reachable
                    retrieveFails acceptUpdate printOk RuleList.addOrRemoveArguments
                    PrincipalRegex (bare ["^a$"]) ltac:(discriminate))
             tt "policy not found"%string).
    + reflexivity.
    + reflexivity.
Defined.

Lemma calls_in_order_witness :
  let ctx := invocation SSHHost AllowList ["^web-[0-9]+$"] false in
  let sent := setField (PolicySshHost AllowList HostDnsRegex) ["^web-[0-9]+$"] blankPolicy in
  exists client sent',
    reachable ctx = inl client /\
    In (EvUpdatePolicy sent') (trace (snd (online DnsRegexCmd ctx))) /\
    acceptUpdate ctx client sent' (noProvisioner ctx) = inl sent.
Proof.
  intros ctx sent.
  apply (proj2 (proj2 (calls_in_order unit unit noProvisioner tooFew reachable retrieveBlank
                         acceptUpdate printOk RuleList.addOrRemoveArguments
                         DnsRegexCmd ctx)) sent).
  simpl. right. right. right. right. left. reflexivity.
Defined.


Lemma first_case_decides_witness :
  policyObj (snd (online DnsRegexCmd (crowded ["^db[0-9]+$"])))
    = Some (setField (PolicySshHost AllowList HostDnsRegex) ["^db[0-9]+$"] blankPolicy).
Proof.
  apply (first_case_decides unit unit noProvisioner tooFew reachable retrieveBlank
           acceptUpdate printOk RuleList.addOrRemoveArguments
           DnsRegexCmd (crowded ["^db[0-9]+$"]) SSHHost AllowList tt blankPolicy).
  - discriminate.
  - reflexivity.
  - reflexivity.
  - left. split; reflexivity.
  - left. split; reflexivity.
Defined.

Lemma unchanged_list_still_sent_witness :
  let ctx := invocation SSHUser DenyList ["^root$"] true in
  In (EvUpdatePolicy blankPolicy) (trace (snd (online PrincipalRegex ctx))) /\
  policyObj (snd (online PrincipalRegex ctx)) = Some blankPolicy.
Proof.
  intro ctx.
  apply (unchanged_list_still_sent unit unit noProvisioner tooFew reachable retrieveBlank
           acceptUpdate printOk RuleList.addOrRemoveArguments
           PrincipalRegex ctx SSHUser DenyList (fun l => PolicySshUser l UserPrincipalRegex)
           tt blankPolicy).
  - discriminate.
  - reflexivity.
  - reflexivity.
  - reflexivity.
  - reflexivity.
  - reflexivity.
  - reflexivity.
Defined.

Lemma print_failure_after_update_witness :
  let ctx := invocation X509 AllowList ["^.*@example\.com$"] false in
  let sent := setField (PolicyX509 AllowList EmailRegex) ["^.*@example\.com$"] blankPolicy in
  run unit
    (action unit unit noProvisioner tooFew reachable retrieveBlank acceptUpdate printFails
       RuleList.addOrRemoveArguments EmailRegexCmd ctx)
    = (Returned (Some (Ext "broken pipe")),
       {| policyObj := Some sent;
          trace := reached ++ [EvUpdatePolicy sent; EvPrettyPrint sent] |}) /\
  Error (Ext "broken pipe") = "broken pipe"%string.
Proof.
  intros ctx sent.
  apply (proj1 (print_failure_after_update unit unit noProvisioner tooFew reachable
                  retrieveBlank acceptUpdate printFails RuleList.addOrRemoveArguments
                  EmailRegexCmd ctx)
           X509 AllowList (fun l => PolicyX509 l EmailRegex) tt blankPolicy sent
           "broken pipe"%string).
  - discriminate.
  - reflexivity.
  - reflexivity.
  - reflexivity.
  - reflexivity.
  - reflexivity.
  - reflexivity.
  - reflexivity.
Defined.

Lemma succeeds_iff_witness :
  fst (online UriConstraint (invocation X509 DenyList ["http://"] false)) = Returned None.
Proof.
  apply (proj2 (succeeds_iff unit unit noProvisioner tooFew reachable retrieveBlank
                  acceptUpdate printOk RuleList.addOrRemoveArguments
                  UriConstraint (invocation X509 DenyList ["http://"] false))).
  split; [discriminate|].
  exists tt, blankPolicy, X509, DenyList, (fun l => PolicyX509 l UriConstraints).
  eexists.
  repeat split; reflexivity.
Defined.

Lemma errors_enumerated_witness :
  let ctx := invocation X509 AllowList ["("] false in
  let err := Errorf "error updating policy" "invalid pattern" in
  (Args ctx = [] /\ err = Ext (tooFew ctx)) \/
  (exists e, reachable ctx = inr e /\ err = Errorf "error creating admin client" e) \/
  (exists client e,
     reachable ctx = inl client /\
     retrieveBlank ctx client (noProvisioner ctx) = inr e /\
     err = Errorf "error retrieving policy" e) \/
  (exists b, activeBranch ctx = Some b /\ legal b (kindOf CnRegex) = false /\
     err = ErrorsNew (unsupported CnRegex b)) \/
  (exists client sent e,
     refuseUpdate ctx client sent (noProvisioner ctx) = inr e /\
     err = Errorf "error updating policy" e) \/
  (exists updatedPolicy e, printOk updatedPolicy = Some e /\ err = Ext e).
Proof.
  intros ctx err.
  apply (errors_enumerated unit unit noProvisioner tooFew reachable retrieveBlank
           refuseUpdate printOk RuleList.addOrRemoveArguments CnRegex ctx err).
  reflexivity.
Defined.

Lemma other_commands_lists_untouched_witness :
  let ctx := invocation X509 AllowList ["^https://"] false in
  let sent := setField (PolicyX509 AllowList UriRegex) ["^https://"] blankPolicy in
  exists client p0,
    reachable ctx = inl client /\
    retrieveBlank ctx client (noProvisioner ctx) = inl p0 /\
    getField (PolicyX509 AllowList UriConstraints) sent
      = getField (PolicyX509 AllowList UriConstraints) p0.
Proof.
  intros ctx sent.
  apply (other_commands_lists_untouched unit unit noProvisioner tooFew reachable retrieveBlank
           acceptUpdate printOk RuleList.addOrRemoveArguments
           UriRegexCmd UriConstraint ctx sent X509 AllowList
           (fun l => PolicyX509 l UriConstraints)).
  - discriminate.
  - reflexivity.
  - simpl. right. right. right. left. reflexivity.
Defined.

End Actions.
